(** * polyaxon client: the application state aggregate and the group overview

    A shallow embedding of
      - [client/src/constants/types.ts]  (the [AppState] interface and the
        [AppEmptyState] object literal), and
      - [client/src/components/groups/groupOverview.tsx]  (the [render]
        method of the [GroupOverview] component).

    JavaScript objects used as dictionaries are finite maps with string keys:
    the map holds the object's own properties.  The names every object
    inherits from [Object.prototype] ([constructor], [toString], ...) are
    not in the map; none of them is a key of the two files. *)

From Stdlib Require Import ZArith.
From stdpp Require Import gmap strings list fin_maps.

Set Warnings "-register-all".

Open Scope string_scope.

(** ** JavaScript values *)

(** The values that flow through the two files: strings ([''], descriptions,
    readme texts), arrays (tag lists), and objects whose content is not
    inspected here.  [VUndefined] is what reading a key yields when the
    object has no property of that name. *)
Inductive value : Type :=
  | VUndefined
  | VNull
  | VBool (b : bool)
  | VNum (n : Z)
  | VStr (s : string)
  | VArr (items : list value)
  | VObj (fields : list (string * value)).

(** A plain object: its own properties, from names to values. *)
Abbreviation object := (gmap string value).

(** [o[k]] for a key [k] that is not a name inherited from
    [Object.prototype]: the own property, [undefined] when there is none.
    (For an inherited name JavaScript yields the inherited value; this
    read does not follow the prototype chain.) *)
Definition get (o : object) (k : string) : value :=
  match o !! k with
  | Some v => v
  | None => VUndefined
  end.

(** [o.hasOwnProperty(k)]. *)
Definition has_key (o : object) (k : string) : bool :=
  bool_decide (is_Some (o !! k)).

(** [Object.keys] of an object literal, taken from its written entries. *)
Definition keys_of (entries : list (string * value)) : list string :=
  entries.*1.

(** ** constants/types.ts *)

Module Types.

(** The field declarations of [interface AppState], in source order, each
    with the name of its declared type. *)
Definition AppState : list (string * string) :=
  [ ("projects", "ProjectStateSchema");
    ("experiments", "ExperimentStateSchema");
    ("experimentsParams", "ExperimentParamStateSchema");
    ("groups", "GroupStateSchema");
    ("jobs", "JobStateSchema");
    ("builds", "BuildStateSchema");
    ("experimentJobs", "ExperimentJobStateSchema");
    ("modal", "ModalStateSchema");
    ("auth", "TokenStateSchema");
    ("healthStatus", "HealthStatusStateSchema");
    ("users", "UserStateSchema");
    ("logs", "string");
    ("statuses", "StatusStateSchema");
    ("metrics", "MetricStateSchema");
    ("activityLogs", "ActivityLogsStateSchema");
    ("searches", "SearchesStateSchema");
    ("chartViews", "ChartViewStateSchema");
    ("codeReferences", "CodeReferenceStateSchema") ].

(** The keys declared by the interface. *)
Definition AppState_keys : list string := AppState.*1.

(** The per-feature default values imported from the [models/] modules.
    Those modules are not part of the two files embedded here, so the
    defaults are taken as they come: arbitrary values. *)
Record Imports : Type := {
  ProjectsEmptyState : value;
  ExperimentsEmptyState : value;
  ExperimentsParamsEmptyState : value;
  GroupsEmptyState : value;
  JobsEmptyState : value;
  BuildsEmptyState : value;
  ExperimentJobsEmptyState : value;
  TokenEmptyState : value;
  HealthStatusEmptyState : value;
  UserEmptyState : value;
  StatusEmptyState : value;
  MetricEmptyState : value;
  ActivityLogsEmptyState : value;
  SearchesEmptyState : value;
  ChartViewEmptyState : value;
  CodeReferenceEmptyState : value
}.

Section EmptyState.

Variable models : Imports.

(** The entries of the object literal [AppEmptyState], in source order. *)
Definition AppEmptyState_entries : list (string * value) :=
  [ ("projects", ProjectsEmptyState models);
    ("experiments", ExperimentsEmptyState models);
    ("experimentsParams", ExperimentsParamsEmptyState models);
    ("groups", GroupsEmptyState models);
    ("jobs", JobsEmptyState models);
    ("builds", BuildsEmptyState models);
    ("experimentJobs", ExperimentJobsEmptyState models);
    ("auth", TokenEmptyState models);
    ("healthStatus", HealthStatusEmptyState models);
    ("user", UserEmptyState models);
    ("logs", VStr "");
    ("statuses", StatusEmptyState models);
    ("metrics", MetricEmptyState models);
    ("activityLogs", ActivityLogsEmptyState models);
    ("searches", SearchesEmptyState models);
    ("chartViews", ChartViewEmptyState models);
    ("codeReferences", CodeReferenceEmptyState models) ].

(** [export const AppEmptyState = { ... }]. *)
Definition AppEmptyState : object := list_to_map AppEmptyState_entries.

(** Declared keys for which the default object has no entry. *)
Definition missing_defaults : list string :=
  filter (λ k, has_key AppEmptyState k = false) AppState_keys.

(** Keys the default object populates although the interface does not
    declare them. *)
Definition undeclared_defaults : list string :=
  filter (λ k, k ∉ AppState_keys) (keys_of AppEmptyState_entries).

End EmptyState.

End Types.


(** ** Effects *)

(** Callbacks run against the surrounding application (the store, the
    network, ...), of which nothing is known here: an effectful computation
    is a state transformer over an arbitrary [World]. *)
Definition Eff (World A : Type) : Type := World → A * World.

#[global] Instance Eff_ret {World} : MRet (Eff World) :=
  λ A a w, (a, w).

#[global] Instance Eff_bind {World} : MBind (Eff World) :=
  λ A B k m w, let '(a, w') := m w in k a w'.

(** The world a computation leaves behind, and its result. *)
Definition exec {World A} (m : Eff World A) (w : World) : World := (m w).2.
Definition eval {World A} (m : Eff World A) (w : World) : A := (m w).1.

(** ** React elements *)

(** The type of an element: a host tag ([div], [span], ...) or a component
    referred to by its identifier. *)
Inductive elem_type : Type :=
  | Host (tag : string)
  | Component (name : string).

Section Tree.

Context {World : Type}.

(** A prop is a plain value or a callback taking the value handed over by
    the widget. *)
Inductive prop : Type :=
  | PValue (v : value)
  | PHandler (h : value → Eff World unit).

(** What a JSX expression evaluates to: an element
    ([React.createElement(type, props, ...children)]), a text, or a
    boolean (the value of a [cond && <X/>] child whose condition is
    false; React renders nothing for it). *)
Inductive node : Type :=
  | Elem (type : elem_type) (props : gmap string prop) (children : list node)
  | Text (s : string)
  | Bool (b : bool).

(** Every node of a tree, in document order, the root first. *)
Fixpoint subnodes (n : node) : list node :=
  n :: match n with
       | Elem _ _ children => flat_map subnodes children
       | _ => []
       end.

Definition is_component (name : string) (n : node) : bool :=
  match n with
  | Elem (Component c) _ _ => String.eqb c name
  | _ => false
  end.

Definition is_host (tag : string) (n : node) : bool :=
  match n with
  | Elem (Host t) _ _ => String.eqb t tag
  | _ => false
  end.

(** [n.props[k]], when it is a plain value. *)
Definition prop_value (n : node) (k : string) : value :=
  match n with
  | Elem _ props _ =>
      match props !! k with
      | Some (PValue v) => v
      | _ => VUndefined
      end
  | _ => VUndefined
  end.

(** [n.props[k]], when it is a callback. *)
Definition prop_handler (n : node) (k : string)
  : option (value → Eff World unit) :=
  match n with
  | Elem _ props _ =>
      match props !! k with
      | Some (PHandler h) => Some h
      | _ => None
      end
  | _ => None
  end.

(** The components named [name] of a tree, in document order. *)
Definition widgets (name : string) (t : node) : list node :=
  List.filter (is_component name) (subnodes t).

End Tree.

Arguments prop : clear implicits.
Arguments node : clear implicits.

(** ** components/groups/groupOverview.tsx *)

(** A reference that may be [null] or [undefined] at run time. *)
Inductive nullable (A : Type) : Type :=
  | Null
  | Undefined
  | Present (a : A).
Arguments Null {A}.
Arguments Undefined {A}.
Arguments Present {A} a.

(** lodash's [_.isNil]: [value == null]. *)
Definition isNil {A} (x : nullable A) : bool :=
  match x with
  | Present _ => false
  | _ => true
  end.

(** Modelled from the spec: the declaration of [GroupModel] lives in
    [models/group], which is not among the embedded files.  The fields are
    those [render] reads, typed after the spec's data model: identifiers,
    texts and timestamps are strings, counts are integers, the dashboard
    availability is a flag. *)
Record GroupModel : Type := {
  id : string;
  project : string;
  description : string;
  readme : string;
  tags : list string;
  user : string;
  created_at : string;
  updated_at : string;
  started_at : string;
  finished_at : string;
  last_status : string;
  search_algorithm : string;
  concurrency : Z;
  current_iteration : Z;
  num_experiments : Z;
  num_scheduled_experiments : Z;
  num_pending_experiments : Z;
  num_running_experiments : Z;
  num_succeeded_experiments : Z;
  num_failed_experiments : Z;
  num_stopped_experiments : Z;
  has_tensorboard : bool
}.

Module GroupOverview.

Section Component.

Context {World Action : Type}.

(** [constants/utils.getGroupTensorboardUrl] and
    [components/empty/emptyList.EmptyList]: collaborators defined outside
    the embedded files.  Both are functions of their arguments: a URL
    builder (project id, group id to URL string) and a placeholder builder
    (flag, item label, context label to tree). *)
Variable getGroupTensorboardUrl : string → string → string.
Variable EmptyList : bool → string → string → node World.

(** [interface Props]. *)
Record Props : Type := {
  group : nullable GroupModel;
  onUpdate : object → Eff World Action
}.

(** JSX attribute values. *)
Definition str (s : string) : prop World := PValue (VStr s).
Definition num (n : Z) : prop World := PValue (VNum n).
Definition flag (b : bool) : prop World := PValue (VBool b).
Definition strs (l : list string) : prop World := PValue (VArr (VStr <$> l)).

(** [<div className=...>children</div>]. *)
Definition div (className : string) (children : list (node World))
  : node World :=
  Elem (Host "div") {[ "className" := str className ]} children.

(** [<MetaInfo icon=... name=... value={...} inline={...}/>]. *)
Definition MetaInfo (icon name : string) (value : Z) (inline : bool)
  : node World :=
  Elem (Component "MetaInfo")
    (<[ "icon" := str icon ]> (<[ "name" := str name ]>
     (<[ "value" := num value ]> {[ "inline" := flag inline ]}))) [].

(** [cond && element] in child position. *)
Definition and_then (cond : bool) (element : node World) : node World :=
  if cond then element else Bool false.

(** The three [onSave] closures of [render].  [this.props] is read when
    a closure runs; the host re-renders the component whenever its props
    change, so these are the props of the render that made the closure.
    The action returned by [onUpdate] is dropped. *)
Definition save_description (props : Props) : value → Eff World unit :=
  λ description, props.(onUpdate) {[ "description" := description ]};; mret tt.

Definition save_tags (props : Props) : value → Eff World unit :=
  λ tags, props.(onUpdate) {[ "tags" := tags ]};; mret tt.

Definition save_readme (props : Props) : value → Eff World unit :=
  λ readme, props.(onUpdate) {[ "readme" := readme ]};; mret tt.

(** The tree returned for a group that is there. *)
Definition overview (props : Props) (group : GroupModel) : node World :=
  div "entity-details"
    [ div "row"
      [ div "col-md-12"
        [ Elem (Component "Description")
            (<[ "description" := str group.(description) ]>
             (<[ "showEmpty" := flag true ]>
              {[ "onSave" := PHandler (save_description props) ]})) [];
          div "meta"
            [ Elem (Component "UserMetaInfo")
                (<[ "user" := str group.(user) ]>
                 {[ "inline" := flag true ]}) [];
              Elem (Component "DatesMetaInfo")
                (<[ "createdAt" := str group.(created_at) ]>
                 (<[ "updatedAt" := str group.(updated_at) ]>
                  {[ "inline" := flag true ]})) [] ];
          div "meta"
            [ Elem (Component "TaskRunMetaInfo")
                (<[ "startedAt" := str group.(started_at) ]>
                 (<[ "finishedAt" := str group.(finished_at) ]>
                  {[ "inline" := flag true ]})) [];
              Elem (Component "Status")
                {[ "status" := str group.(last_status) ]} [] ];
          div "meta"
            [ Elem (Component "SearchAlgorithmMetaInfo")
                (<[ "searchAlgorithm" := str group.(search_algorithm) ]>
                 {[ "inline" := flag true ]}) [];
              Elem (Component "ConcurrencyMetaInfo")
                (<[ "concurrency" := num group.(concurrency) ]>
                 {[ "inline" := flag true ]}) [];
              and_then (0 <? group.(current_iteration))%Z
                (MetaInfo "fa-refresh" "Iteration"
                   group.(current_iteration) true) ];
          div "meta"
            [ Elem (Component "ExperimentCountMetaInfo")
                (<[ "count" := num group.(num_experiments) ]>
                 {[ "inline" := flag true ]}) [];
              MetaInfo "fa-hourglass-1" "Scheduled"
                group.(num_scheduled_experiments) true;
              MetaInfo "fa-hourglass-end" "Pending"
                group.(num_pending_experiments) true;
              MetaInfo "fa-bolt" "Running"
                group.(num_running_experiments) true;
              MetaInfo "fa-check" "Succeeded"
                group.(num_succeeded_experiments) true;
              MetaInfo "fa-close" "Failed"
                group.(num_failed_experiments) true;
              MetaInfo "fa-stop" "Stopped"
                group.(num_stopped_experiments) true ];
          and_then group.(has_tensorboard)
            (div "meta"
               [ Elem (Host "span")
                   {[ "className" := str "meta-info meta-dashboard" ]}
                   [ Elem (Host "i")
                       (<[ "className" := str "fa fa-link icon" ]>
                        {[ "aria-hidden" := str "true" ]}) [];
                     Elem (Host "a")
                       (<[ "href" := str (getGroupTensorboardUrl
                                            group.(project) group.(id)) ]>
                        {[ "className" := str "title-link" ]})
                       [ Text "Tensorboard" ] ] ]);
          Elem (Component "Tags")
            (<[ "tags" := strs group.(tags) ]>
             {[ "onSave" := PHandler (save_tags props) ]}) [];
          Elem (Component "MDEditor")
            (<[ "content" := str group.(readme) ]>
             {[ "onSave" := PHandler (save_readme props) ]}) [] ] ] ].

(** [public render()]: the placeholder when [_.isNil(group)], the
    overview otherwise. *)
Definition render (props : Props) : Eff World (node World) :=
  let group := props.(group) in
  match group with
  | Null | Undefined => mret (EmptyList false "experiment group" "group")
  | Present group => mret (overview props group)
  end.

End Component.

Arguments Props : clear implicits.
Arguments Build_Props {World Action} group onUpdate.

(** *** Reading a rendered tree *)

Section Observe.

Context {World : Type}.

(** The widget's [name] prop is the string [label]. *)
Definition name_is (label : string) (n : node World) : bool :=
  match prop_value n "name" with
  | VStr s => String.eqb s label
  | _ => false
  end.

(** The current-iteration counter: the [MetaInfo] labelled "Iteration". *)
Definition is_iteration (n : node World) : bool :=
  is_component "MetaInfo" n && name_is "Iteration" n.

Definition iteration_widgets (t : node World) : list (node World) :=
  List.filter is_iteration (subnodes t).

(** The outcome counters: every count widget ([ExperimentCountMetaInfo]
    or [MetaInfo]) other than the iteration counter. *)
Definition is_outcome_count (n : node World) : bool :=
  (is_component "ExperimentCountMetaInfo" n || is_component "MetaInfo" n)
  && negb (is_iteration n).

Definition outcome_widgets (t : node World) : list (node World) :=
  List.filter is_outcome_count (subnodes t).

(** The number a count widget displays: its [count] or [value] prop. *)
Definition shown_count (n : node World) : value :=
  if is_component "ExperimentCountMetaInfo" n
  then prop_value n "count" else prop_value n "value".

(** The hyperlinks of a tree. *)
Definition links (t : node World) : list (node World) :=
  List.filter (is_host "a") (subnodes t).

(** The [onSave] callback of the first [editor] widget of a tree. *)
Definition on_save (editor : string) (t : node World)
  : option (value → Eff World unit) :=
  n ← head (widgets editor t); prop_handler n "onSave".

(** The user saves [v] in the [editor] widget: the world afterwards, if
    the tree has such a widget. *)
Definition user_saves (editor : string) (v : value) (t : node World)
    (w : World) : option World :=
  (λ h, exec (h v) w) <$> on_save editor t.

End Observe.

(** *** A recording callback *)

(** An [onUpdate] that appends each payload it is called with to a log
    (the world is that log) and answers with the action [act] builds. *)
Definition spy {Action} (act : object → Action)
  : object → Eff (list object) Action :=
  λ payload calls, (act payload, (calls ++ [payload])%list).

End GroupOverview.

(** ** Further readings of a rendered tree *)

Section Inspect.

Import GroupOverview.

Context {World : Type}.

(** The identifier of a component element. *)
Definition component_name (n : node World) : option string :=
  match n with
  | Elem (Component c) _ _ => Some c
  | _ => None
  end.

(** The components of a tree, by name, in document order. *)
Definition component_names (t : node World) : list string :=
  omap component_name (subnodes t).

(** The texts a tree puts on the page itself. *)
Definition texts (t : node World) : list string :=
  omap (λ n, match n with Text s => Some s | _ => None end) (subnodes t).

(** What the [name] widgets of a tree are given as their prop [key]. *)
Definition shown (name key : string) (t : node World) : list value :=
  (λ n, prop_value n key) <$> widgets name t.

Definition is_handler (p : prop World) : bool :=
  match p with
  | PHandler _ => true
  | PValue _ => false
  end.

(** The props of an element that are callbacks. *)
Definition handler_props (n : node World) : list string :=
  match n with
  | Elem _ props _ =>
      (map_to_list (filter (λ kv, is_handler kv.2 = true) props)).*1
  | _ => []
  end.

(** Every callback a tree hands out: the component that receives it and
    the prop it is passed as, in document order. *)
Definition callbacks (t : node World) : list (string * string) :=
  flat_map
    (λ n, match component_name n with
          | Some c => (λ k, (c, k)) <$> handler_props n
          | None => (λ k, ("", k)) <$> handler_props n
          end)
    (subnodes t).



(** The widget is passed [inline={true}]. *)
Definition is_inline (n : node World) : bool :=
  match prop_value n "inline" with
  | VBool true => true
  | _ => false
  end.

(** The components of a tree that are not passed [inline={true}]. *)
Definition not_inline (t : node World) : list string :=
  omap component_name
    (List.filter (λ n, negb (is_inline n)) (subnodes t)).

(** The three editors of the overview, the component each one is and the
    field of the group each one edits. *)
Inductive editor : Type :=
  | DescriptionEditor
  | TagsEditor
  | ReadmeEditor.

Definition editor_widget (e : editor) : string :=
  match e with
  | DescriptionEditor => "Description"
  | TagsEditor => "Tags"
  | ReadmeEditor => "MDEditor"
  end.

Definition editor_field (e : editor) : string :=
  match e with
  | DescriptionEditor => "description"
  | TagsEditor => "tags"
  | ReadmeEditor => "readme"
  end.

(** The user saves one value after another, each in the editor named with
    it, in the same tree. *)
Fixpoint user_saves_all (edits : list (editor * value)) (t : node World)
    (w : World) : option World :=
  match edits with
  | [] => Some w
  | (e, v) :: rest =>
      w' ← user_saves (editor_widget e) v t w; user_saves_all rest t w'
  end.

End Inspect.

(** ** Concrete inputs: the scenarios of the specification *)

Module Scenario.

Import GroupOverview.

Definition url (project group : string) : string :=
  "/tensorboard/" ++ project ++ "/groups/" ++ group ++ "/".

Definition placeholder (_ : bool) (item context : string)
  : node (list object) :=
  Elem (Component "EmptyList")
    (<[ "item" := PValue (VStr item) ]>
     {[ "context" := PValue (VStr context) ]}) [].

Definition sample (iteration : Z) (tensorboard : bool) : GroupModel :=
  {| id := "g7"; project := "p1"; description := "sweep"; readme := "";
     tags := ["a"; "b"]; user := "root";
     created_at := "2018-01-01"; updated_at := "2018-01-02";
     started_at := "2018-01-01"; finished_at := "";
     last_status := "running"; search_algorithm := "grid";
     concurrency := 2; current_iteration := iteration;
     num_experiments := 10; num_scheduled_experiments := 1;
     num_pending_experiments := 2; num_running_experiments := 3;
     num_succeeded_experiments := 4; num_failed_experiments := 0;
     num_stopped_experiments := 0; has_tensorboard := tensorboard |}.

Definition view (grp : nullable GroupModel) : node (list object) :=
  eval (render url placeholder (Build_Props grp (spy (λ _, tt)))) [].

End Scenario.

(** Splits on the two conditions of the overview and evaluates the tree. *)
Ltac eval_overview g :=
  destruct g;
  unfold GroupOverview.overview;
  cbn [current_iteration has_tensorboard];
  repeat match goal with
    | |- context [GroupOverview.and_then ?c _] =>
        is_var c; destruct c
    | |- context [GroupOverview.and_then (?a <? ?b)%Z _] =>
        let E := fresh "E" in destruct (a <? b)%Z eqn:E
    end;
  try reflexivity.

(** * Properties *)

(** ** The application state aggregate *)

Section TypesProperties.

Import Types.

Variable models : Imports.

Lemma AppState_declares (k : string) :
  In k AppState_keys → k ∈ AppState_keys.
Proof. apply list_elem_of_In. Qed.

(** C1. The default singleton does not have a value at every key the
    state type declares: [users] and [modal] are declared fields of
    [AppState], and reading either of them from [AppEmptyState] yields
    [undefined], whatever the per-feature defaults are. *)
Theorem AppEmptyState_undefined_at_declared_keys :
  "users" ∈ AppState_keys
  ∧ get (AppEmptyState models) "users" = VUndefined
  ∧ "modal" ∈ AppState_keys
  ∧ get (AppEmptyState models) "modal" = VUndefined.
Proof.
  split_and!.
  - apply AppState_declares; simpl; tauto.
  - vm_compute; reflexivity.
  - apply AppState_declares; simpl; tauto.
  - vm_compute; reflexivity.
Qed.

(** C10. [AppEmptyState] departs from [AppState] at exactly two declared
    keys: [modal] and [users] have no entry.  The only undeclared key it
    populates is [user], which holds the users default.  Every other
    declared key has an entry. *)
Theorem AppEmptyState_diverges_at_modal_and_users :
  missing_defaults models = ["modal"; "users"]
  ∧ AppEmptyState models !! "modal" = None
  ∧ AppEmptyState models !! "users" = None
  ∧ undeclared_defaults models = ["user"]
  ∧ AppEmptyState models !! "user" = Some (UserEmptyState models)
  ∧ Forall (λ k, is_Some (AppEmptyState models !! k))
      (list_difference AppState_keys ["modal"; "users"]).
Proof.
  split_and!; try (vm_compute; reflexivity).
  apply (bool_decide_unpack _). vm_compute. exact I.
Qed.

End TypesProperties.

(** ** The group overview *)

Section OverviewProperties.

Import GroupOverview.

Context {World Action : Type}.
Variable getGroupTensorboardUrl : string → string → string.
Variable EmptyList : bool → string → string → node World.

Abbreviation render := (render getGroupTensorboardUrl EmptyList).
Abbreviation overview := (overview getGroupTensorboardUrl).

Implicit Types (g : GroupModel) (u : object → Eff World Action) (w : World).

Lemma render_present g u w :
  render (Build_Props (Present g) u) w
  = (overview (Build_Props (Present g) u) g, w).
Proof. reflexivity. Qed.

Lemma eval_render_present g u w :
  eval (render (Build_Props (Present g) u)) w
  = overview (Build_Props (Present g) u) g.
Proof. reflexivity. Qed.

Lemma overview_iteration_widgets (props : Props World Action) g :
  iteration_widgets (overview props g)
  = if (0 <? current_iteration g)%Z
    then [MetaInfo "fa-refresh" "Iteration" (current_iteration g) true]
    else [].
Proof. eval_overview g. Qed.

Lemma overview_links (props : Props World Action) g :
  links (overview props g)
  = if has_tensorboard g
    then [Elem (Host "a")
            (<[ "href" := str (getGroupTensorboardUrl (project g) (id g)) ]>
             {[ "className" := str "title-link" ]})
            [Text "Tensorboard"]]
    else [].
Proof. eval_overview g. Qed.


Lemma overview_editors (props : Props World Action) g :
  widgets "Description" (overview props g)
  = [ Elem (Component "Description")
        (<[ "description" := str (description g) ]>
         (<[ "showEmpty" := flag true ]>
          {[ "onSave" := PHandler (save_description props) ]})) [] ]
  ∧ widgets "Tags" (overview props g)
    = [ Elem (Component "Tags")
          (<[ "tags" := strs (tags g) ]>
           {[ "onSave" := PHandler (save_tags props) ]}) [] ]
  ∧ widgets "MDEditor" (overview props g)
    = [ Elem (Component "MDEditor")
          (<[ "content" := str (readme g) ]>
           {[ "onSave" := PHandler (save_readme props) ]}) [] ].
Proof. split_and!; eval_overview g. Qed.

(** Calling [onUpdate] and dropping its answer changes the world as the
    call does. *)
Lemma exec_save (props : Props World Action) (payload : object) w :
  exec (onUpdate props payload;; mret tt) w
  = exec (onUpdate props payload) w.
Proof.
  unfold exec, mbind, Eff_bind. destruct (onUpdate props payload w).
  reflexivity.
Qed.

(** Saving in an editor runs [onUpdate] on the one-field payload and
    nothing else. *)
Lemma overview_user_saves (props : Props World Action) g (v : value) w :
  user_saves "Description" v (overview props g) w
  = Some (exec (onUpdate props {[ "description" := v ]}) w)
  ∧ user_saves "Tags" v (overview props g) w
    = Some (exec (onUpdate props {[ "tags" := v ]}) w)
  ∧ user_saves "MDEditor" v (overview props g) w
    = Some (exec (onUpdate props {[ "readme" := v ]}) w).
Proof.
  unfold user_saves, on_save.
  destruct (overview_editors props g) as (-> & -> & ->).
  split_and!.
  - transitivity (Some (exec (save_description props v) w));
      [reflexivity | apply f_equal, exec_save].
  - transitivity (Some (exec (save_tags props v) w));
      [reflexivity | apply f_equal, exec_save].
  - transitivity (Some (exec (save_readme props v) w));
      [reflexivity | apply f_equal, exec_save].
Qed.

Lemma contains_filter (f : node World → bool) (t : node World) :
  (∃ n, In n (subnodes t) ∧ f n = true) ↔ List.filter f (subnodes t) ≠ [].
Proof.
  split.
  - intros (n & Hn & Hf) Hnil.
    assert (Hin : In n (List.filter f (subnodes t)))
      by (apply filter_In; auto).
    rewrite Hnil in Hin. destruct Hin.
  - destruct (List.filter f (subnodes t)) as [|n l] eqn:E; [congruence|].
    intros _. exists n. apply filter_In. rewrite E. left. reflexivity.
Qed.

(** C2. For a group that is there, the rendered tree contains the
    current-iteration widget exactly when [current_iteration > 0]; when it
    does, there is one such widget, the [MetaInfo] with icon "fa-refresh"
    and label "Iteration", and the value it displays is
    [current_iteration].  For [current_iteration = 0] no such widget is in
    the tree. *)
Theorem iteration_widget_iff_positive g u w :
  let t := eval (render (Build_Props (Present g) u)) w in
  ((∃ n, In n (subnodes t) ∧ is_iteration n = true)
     ↔ (0 < current_iteration g)%Z)
  ∧ iteration_widgets t
    = (if (0 <? current_iteration g)%Z
       then [MetaInfo "fa-refresh" "Iteration" (current_iteration g) true]
       else [])
  ∧ Forall (λ n, prop_value n "value" = VNum (current_iteration g))
      (iteration_widgets t).
Proof.
  cbv zeta. rewrite eval_render_present, contains_filter.
  fold (iteration_widgets (overview (Build_Props (Present g) u) g)).
  rewrite overview_iteration_widgets.
  destruct (Z.ltb_spec 0 (current_iteration g)); split_and!.
  - split; [auto | discriminate].
  - reflexivity.
  - repeat constructor.
  - split; [congruence | lia].
  - reflexivity.
  - constructor.
Qed.

(** C3. For a group that is there, the rendered tree contains the
    dashboard hyperlink exactly when [has_tensorboard] is true; when it
    does, there is one link, labelled "Tensorboard", and its target is
    [getGroupTensorboardUrl] applied to the group's project identifier and
    the group's identifier. *)
Theorem dashboard_link_iff_has_tensorboard g u w :
  let t := eval (render (Build_Props (Present g) u)) w in
  ((∃ n, In n (subnodes t) ∧ is_host "a" n = true)
     ↔ has_tensorboard g = true)
  ∧ links t
    = (if has_tensorboard g
       then [Elem (Host "a")
               (<[ "href" := str (getGroupTensorboardUrl
                                    (project g) (id g)) ]>
                {[ "className" := str "title-link" ]})
               [Text "Tensorboard"]]
       else [])
  ∧ Forall (λ n, prop_value n "href"
                 = VStr (getGroupTensorboardUrl (project g) (id g)))
      (links t).
Proof.
  cbv zeta. rewrite eval_render_present, contains_filter.
  fold (links (overview (Build_Props (Present g) u) g)).
  rewrite overview_links.
  destruct (has_tensorboard g); split_and!.
  - split; [auto | discriminate].
  - reflexivity.
  - repeat constructor.
  - split; [congruence | discriminate].
  - reflexivity.
  - constructor.
Qed.


(** C5. For a group that is absent ([null] or [undefined]), [render]
    returns the placeholder [EmptyList(false, 'experiment group',
    'group')] and leaves the world as it found it, whatever [onUpdate]
    is: the callback is not called and none of the editors, whose save
    callbacks would call it, is created. *)
Theorem render_absent_group (grp : nullable GroupModel) u w :
  isNil grp = true →
  render (Build_Props grp u) w
  = (EmptyList false "experiment group" "group", w).
Proof. destruct grp; [reflexivity | reflexivity | discriminate]. Qed.

End OverviewProperties.

(** ** The editors, observed through a recording callback *)

Section EditorProperties.

Import GroupOverview.

Context {Action : Type}.
Variable getGroupTensorboardUrl : string → string → string.
Variable EmptyList : bool → string → string → node (list object).

Abbreviation rendered g act w :=
  (eval (render getGroupTensorboardUrl EmptyList
           (Build_Props (Present g) (spy act))) w).

Implicit Types (g : GroupModel) (act : object → Action)
  (calls : list object).

Lemma spy_saves g act w (v : value) calls :
  user_saves "Description" v (rendered g act w) calls
  = Some (calls ++ [ {[ "description" := v ]} ])%list
  ∧ user_saves "Tags" v (rendered g act w) calls
    = Some (calls ++ [ {[ "tags" := v ]} ])%list
  ∧ user_saves "MDEditor" v (rendered g act w) calls
    = Some (calls ++ [ {[ "readme" := v ]} ])%list.
Proof.
  rewrite eval_render_present.
  destruct (overview_user_saves getGroupTensorboardUrl
              (Build_Props (Present g) (spy act)) g v calls)
    as (-> & -> & ->).
  split_and!; reflexivity.
Qed.

(** C6. For a group that is there, the tree has one description editor,
    and saving a new description in it calls the update callback exactly
    once, with the payload [{description: newValue}]: the calls recorded
    before are kept and that one payload is added. *)
Theorem description_save_calls_onUpdate_once
    g act w (newValue : string) calls :
  length (widgets "Description" (rendered g act w)) = 1
  ∧ user_saves "Description" (VStr newValue) (rendered g act w) calls
    = Some (calls ++ [ {[ "description" := VStr newValue ]} ])%list.
Proof.
  split; [| apply spy_saves].
  rewrite eval_render_present.
  destruct (overview_editors getGroupTensorboardUrl
              (Build_Props (Present g) (spy act)) g) as (-> & _).
  reflexivity.
Qed.

(** C7. For a group that is there, saving a new tag list in the tag
    editor calls the update callback with the payload
    [{tags: newTagList}], and saving a new text in the readme editor
    calls it with the payload [{readme: newText}]. *)
Theorem tags_and_readme_save_call_onUpdate
    g act w (newTagList : list string) (newText : string) calls :
  user_saves "Tags" (VArr (VStr <$> newTagList)) (rendered g act w) calls
  = Some (calls ++ [ {[ "tags" := VArr (VStr <$> newTagList) ]} ])%list
  ∧ user_saves "MDEditor" (VStr newText) (rendered g act w) calls
    = Some (calls ++ [ {[ "readme" := VStr newText ]} ])%list.
Proof.
  split.
  - apply (spy_saves g act w (VArr (VStr <$> newTagList)) calls).
  - apply (spy_saves g act w (VStr newText) calls).
Qed.

(** C8. Whatever value is saved in whichever of the three editors, the
    payload handed to the update callback has one key, the edited field,
    and no other: its key set is the singleton of that field. *)
Theorem update_payload_has_only_the_edited_field
    g act w (v : value) calls :
  (∃ payload : object,
      user_saves "Description" v (rendered g act w) calls
      = Some (calls ++ [payload])%list
      ∧ dom payload = {[ "description" ]} ∧ size payload = 1
      ∧ payload !! "description" = Some v)
  ∧ (∃ payload : object,
        user_saves "Tags" v (rendered g act w) calls
        = Some (calls ++ [payload])%list
        ∧ dom payload = {[ "tags" ]} ∧ size payload = 1
        ∧ payload !! "tags" = Some v)
  ∧ (∃ payload : object,
        user_saves "MDEditor" v (rendered g act w) calls
        = Some (calls ++ [payload])%list
        ∧ dom payload = {[ "readme" ]} ∧ size payload = 1
        ∧ payload !! "readme" = Some v).
Proof.
  destruct (spy_saves g act w v calls) as (Hd & Ht & Hr).
  split_and!; eexists; (split; [eassumption |]);
    split_and!;
    [ apply dom_singleton_L | apply map_size_singleton
    | apply lookup_singleton_eq
    | apply dom_singleton_L | apply map_size_singleton
    | apply lookup_singleton_eq
    | apply dom_singleton_L | apply map_size_singleton
    | apply lookup_singleton_eq ].
Qed.

End EditorProperties.

(** ** The scenarios of the specification, run *)

Example iteration_zero_absent :
  GroupOverview.iteration_widgets
    (Scenario.view (Present (Scenario.sample 0 false))) = [].
Proof. reflexivity. Qed.

Example iteration_five_shown :
  (λ n, prop_value n "value")
    <$> GroupOverview.iteration_widgets
          (Scenario.view (Present (Scenario.sample 5 false)))
  = [VNum 5].
Proof. reflexivity. Qed.

Example link_p1_g7 :
  (λ n, prop_value n "href")
    <$> GroupOverview.links (Scenario.view (Present (Scenario.sample 0 true)))
  = [VStr (Scenario.url "p1" "g7")]
  ∧ GroupOverview.links (Scenario.view (Present (Scenario.sample 0 false)))
    = [].
Proof. split; reflexivity. Qed.

Example counts_with_zeros :
  GroupOverview.shown_count
    <$> GroupOverview.outcome_widgets
          (Scenario.view (Present (Scenario.sample 0 false)))
  = VNum <$> [10; 1; 2; 3; 4; 0; 0]%Z.
Proof. reflexivity. Qed.

Example save_hello :
  GroupOverview.user_saves "Description" (VStr "hello")
    (Scenario.view (Present (Scenario.sample 0 false))) []
  = Some [ {[ "description" := VStr "hello" ]} ].
Proof. reflexivity. Qed.

(** The absent-group path at a concrete input. *)
Lemma render_absent_group_witness :
  isNil (@Undefined GroupModel) = true
  ∧ GroupOverview.render Scenario.url Scenario.placeholder
      (GroupOverview.Build_Props Undefined (GroupOverview.spy (λ _, tt))) []
    = (Scenario.placeholder false "experiment group" "group", []).
Proof.
  split; [reflexivity |].
  exact (render_absent_group Scenario.url Scenario.placeholder Undefined
           (GroupOverview.spy (λ _, tt)) [] eq_refl).
Defined.


(** ** More about the application state aggregate *)

Section TypesReadback.

Import Types.

Variable models : Imports.


(** X2. The literal lists its keys in the order of the interface: with
    [user] read as [users], the keys of [AppEmptyState] are the declared
    keys of [AppState] with [modal] left out, one for one and in the same
    order; the interface declares eighteen distinct keys. *)
Theorem AppEmptyState_keys_follow_AppState :
  (λ k, if String.eqb k "user" then "users" else k)
    <$> keys_of (AppEmptyState_entries models)
  = List.filter (λ k, negb (String.eqb k "modal")) AppState_keys
  ∧ NoDup AppState_keys
  ∧ length AppState_keys = 18.
Proof.
  split_and!.
  - vm_compute. reflexivity.
  - apply (bool_decide_unpack _). vm_compute. exact I.
  - reflexivity.
Qed.

End TypesReadback.

(** ** More about the group overview *)

Section OverviewStructure.

Import GroupOverview.

Context {World Action : Type}.
Variable getGroupTensorboardUrl : string → string → string.
Variable EmptyList : bool → string → string → node World.

Abbreviation view g u w :=
  (eval (render getGroupTensorboardUrl EmptyList
           (Build_Props (Present g) u)) w).

Implicit Types (g : GroupModel) (u : object → Eff World Action) (w : World).

(** X3. The widgets of the overview come in one fixed document order:
    the description editor, owner and dates, task run and status, search
    algorithm and concurrency, the iteration counter when there is one, the
    seven outcome counters, the tag editor and the readme editor last.
    Only the iteration counter comes and goes with the data. *)
Theorem overview_widget_order g u w :
  component_names (view g u w)
  = ([ "Description"; "UserMetaInfo"; "DatesMetaInfo"; "TaskRunMetaInfo";
       "Status"; "SearchAlgorithmMetaInfo"; "ConcurrencyMetaInfo" ]
     ++ (if (0 <? current_iteration g)%Z then ["MetaInfo"] else [])
     ++ [ "ExperimentCountMetaInfo"; "MetaInfo"; "MetaInfo"; "MetaInfo";
          "MetaInfo"; "MetaInfo"; "MetaInfo"; "Tags"; "MDEditor" ])%list.
Proof. rewrite eval_render_present. eval_overview g. Qed.

(** X4. Each editor is opened on the group's current value: the
    description editor on [description] (and told to show an empty one),
    the tag editor on [tags], the readme editor on [readme]. *)
Theorem editors_show_current_values g u w :
  shown "Description" "description" (view g u w) = [VStr (description g)]
  ∧ shown "Description" "showEmpty" (view g u w) = [VBool true]
  ∧ shown "Tags" "tags" (view g u w) = [VArr (VStr <$> tags g)]
  ∧ shown "MDEditor" "content" (view g u w) = [VStr (readme g)].
Proof. rewrite !eval_render_present. split_and!; eval_overview g. Qed.

(** X5. Each metadata widget is given its own field of the group: the
    owner, the creation and update dates, the start and finish dates, the
    last status, the search algorithm and the concurrency, none of them
    crossed over. *)
Theorem metadata_widgets_show_group_fields g u w :
  shown "UserMetaInfo" "user" (view g u w) = [VStr (user g)]
  ∧ shown "DatesMetaInfo" "createdAt" (view g u w) = [VStr (created_at g)]
  ∧ shown "DatesMetaInfo" "updatedAt" (view g u w) = [VStr (updated_at g)]
  ∧ shown "TaskRunMetaInfo" "startedAt" (view g u w)
    = [VStr (started_at g)]
  ∧ shown "TaskRunMetaInfo" "finishedAt" (view g u w)
    = [VStr (finished_at g)]
  ∧ shown "Status" "status" (view g u w) = [VStr (last_status g)]
  ∧ shown "SearchAlgorithmMetaInfo" "searchAlgorithm" (view g u w)
    = [VStr (search_algorithm g)]
  ∧ shown "ConcurrencyMetaInfo" "concurrency" (view g u w)
    = [VNum (concurrency g)].
Proof. rewrite !eval_render_present. split_and!; eval_overview g. Qed.

(** X6. The overview hands out three callbacks and no more: the [onSave]
    of the description editor, of the tag editor and of the readme editor.
    No metadata widget and no host element is given a callback. *)
Theorem overview_callbacks g u w :
  callbacks (view g u w)
  = [ ("Description", "onSave"); ("Tags", "onSave"); ("MDEditor", "onSave") ].
Proof. rewrite eval_render_present. eval_overview g. Qed.

(** X7. The text nodes of the overview do not depend on the strings of
    the group: the only one is the fixed link label "Tensorboard", there
    exactly when [has_tensorboard] is true. *)
Theorem overview_texts g u w :
  texts (view g u w)
  = if has_tensorboard g then ["Tensorboard"] else [].
Proof. rewrite eval_render_present. eval_overview g. Qed.

(** X8. Every metadata widget is laid out inline: the components that are
    not passed [inline={true}] are the description editor, the status
    badge, the tag editor and the readme editor, and no other. *)
Theorem metadata_widgets_are_inline g u w :
  not_inline (view g u w) = ["Description"; "Status"; "Tags"; "MDEditor"].
Proof. rewrite eval_render_present. eval_overview g. Qed.

(** X9. Whatever the update callback does, saving a value in an editor
    does to the world what one call of the callback on the one-field
    payload does, and nothing more. *)
Theorem save_is_one_onUpdate_call g u w (e : editor) (v : value) w' :
  user_saves (editor_widget e) v (view g u w) w'
  = Some (exec (u {[ editor_field e := v ]}) w').
Proof.
  rewrite eval_render_present.
  destruct (overview_user_saves getGroupTensorboardUrl
              (Build_Props (Present g) u) g v w') as (Hd & Ht & Hr).
  destruct e; assumption.
Qed.

End OverviewStructure.

Section SaveSequences.

Import GroupOverview.

Context {Action : Type}.
Variable getGroupTensorboardUrl : string → string → string.
Variable EmptyList : bool → string → string → node (list object).

Abbreviation logged g act w :=
  (eval (render getGroupTensorboardUrl EmptyList
           (Build_Props (Present g) (spy act))) w).

Lemma spy_save_one g (act : object → Action) w (e : editor) (v : value)
    (calls : list object) :
  user_saves (editor_widget e) v (logged g act w) calls
  = Some (calls ++ [ {[ editor_field e := v ]} ])%list.
Proof.
  destruct (spy_saves getGroupTensorboardUrl EmptyList g act w v calls)
    as (Hd & Ht & Hr).
  destruct e; assumption.
Qed.

(** X10. Saves do not interfere: after any sequence of saves in the
    editors of one rendered overview, the update callback has been called
    once per save, in the order of the saves, each time with the one-field
    payload of that save; the calls recorded before are kept. *)
Theorem saves_are_logged_in_order g (act : object → Action) w
    (edits : list (editor * value)) (calls : list object) :
  user_saves_all edits (logged g act w) calls
  = Some (calls
          ++ ((λ ev, {[ editor_field ev.1 := ev.2 ]} : object) <$> edits))%list.
Proof.
  revert calls. induction edits as [| [e v] rest IH]; intros calls.
  - cbn. rewrite app_nil_r. reflexivity.
  - cbn [user_saves_all]. rewrite spy_save_one. cbn [mbind option_bind].
    rewrite IH. rewrite <- app_assoc. reflexivity.
Qed.

End SaveSequences.
